(** * Kolibri view components: class-creation modal and item-list report page

    Shallow embedding of the script and template parts of

      - [kolibri/plugins/management/assets/src/views/manage-class-page/class-create-modal.vue]
      - [kolibri/plugins/coach/assets/src/views/reports/item-list-page.vue]

    JavaScript strings are modelled as [string]; the two string built-ins the
    components rely on ([String.prototype.toUpperCase], [String.prototype.trim])
    are an interface ([StringBuiltins]) every result is generic in.  The
    Vuex actions the modal invokes live outside the component: they are an
    arbitrary pair of store transformers that may complete abruptly, and each
    invocation is recorded in a call log. *)

From Stdlib Require Import List String Ascii Bool ZArith Lia.
Import ListNotations.

Local Open Scope string_scope.

(* ------------------------------------------------------------------ *)
(** ** JavaScript built-ins used by the components *)

(** [s.toUpperCase()] and [s.trim()]. *)
Class StringBuiltins : Type := {
  toUpperCase : string -> string;
  trim : string -> string
}.

Module JSArray.

(** [Array.prototype.findIndex]: index of the first element satisfying the
    callback, [-1] when there is none.  [findIndexFrom] carries the index of
    the head of the remaining elements. *)
Fixpoint findIndexFrom {A : Type} (p : A -> bool) (l : list A) (i : Z) : Z :=
  match l with
  | [] => (-1)%Z
  | x :: rest => if p x then i else findIndexFrom p rest (i + 1)%Z
  end.

Definition findIndex {A : Type} (p : A -> bool) (l : list A) : Z :=
  findIndexFrom p l 0%Z.

End JSArray.

(** An ASCII implementation of the built-ins, used to run the components on
    concrete inputs: letters [a]..[z] are mapped to [A]..[Z], and the
    whitespace stripped by [trim] is TAB, LF, VT, FF, CR and SPACE. *)
Module AsciiBuiltins.

Definition upper_char (c : ascii) : ascii :=
  let n := nat_of_ascii c in
  if andb (Nat.leb 97 n) (Nat.leb n 122) then ascii_of_nat (n - 32) else c.

Fixpoint upper (s : string) : string :=
  match s with
  | EmptyString => EmptyString
  | String c rest => String (upper_char c) (upper rest)
  end.

Definition is_space (c : ascii) : bool :=
  let n := nat_of_ascii c in
  orb (andb (Nat.leb 9 n) (Nat.leb n 13)) (Nat.eqb n 32).

Fixpoint trim_start (s : string) : string :=
  match s with
  | EmptyString => EmptyString
  | String c rest => if is_space c then trim_start rest else s
  end.

(** Drops the trailing whitespace: a character is kept unless it is
    whitespace and everything after it was dropped. *)
Fixpoint trim_end (s : string) : string :=
  match s with
  | EmptyString => EmptyString
  | String c rest =>
      match trim_end rest with
      | EmptyString => if is_space c then EmptyString else String c EmptyString
      | kept => String c kept
      end
  end.

Definition strip (s : string) : string := trim_end (trim_start s).

Definition builtins : StringBuiltins :=
  {| toUpperCase := upper; trim := strip |}.

End AsciiBuiltins.

(* ------------------------------------------------------------------ *)
(** ** class-create-modal.vue *)

Module Classroom.
(** An entry of the [classes] prop; the component reads only its [name]. *)
Record t : Type := mk { name : string }.
End Classroom.

Module ClassCreateModal.

(** The component instance: the [classes] prop and the [name] datum. *)
Record vm : Type := mkVm {
  classes : list Classroom.t;
  name : string
}.

(** [data()] *)
Definition data (props_classes : list Classroom.t) : vm :=
  {| classes := props_classes; name := "" |}.

(** Invocations of the mapped Vuex actions. *)
Inductive call : Type :=
| CreateClass (n : string)
| DisplayModal (visible : bool).

Definition call_eq_dec (a b : call) : {a = b} + {a <> b}.
Proof. decide equality; [apply string_dec | apply bool_dec]. Defined.

Definition is_create (c : call) : bool :=
  match c with CreateClass _ => true | DisplayModal _ => false end.

Section Handlers.

Context {SB : StringBuiltins}.

(** The shared store the actions work on, and what they may throw. *)
Variables (Store Exn : Type).

(** [require('../../state/actions')]: the two actions the component maps.
    Each transforms the store and either returns or throws. *)
Record actions : Type := mkActions {
  createClass : string -> Store -> Store * option Exn;
  displayModal : bool -> Store -> Store * option Exn
}.

Variable acts : actions.

Record world : Type := mkWorld {
  this : vm;
  store : Store;
  calls : list call
}.

Inductive completion (A : Type) : Type :=
| Normal (a : A)
| Throw (e : Exn).
Arguments Normal {A} a.
Arguments Throw {A} e.

Definition M (A : Type) : Type := world -> completion A * world.

Definition ret {A : Type} (a : A) : M A := fun w => (Normal a, w).

Definition bind {A B : Type} (m : M A) (f : A -> M B) : M B :=
  fun w =>
    match m w with
    | (Normal a, w') => f a w'
    | (Throw e, w') => (Throw e, w')
    end.

Definition getThis : M vm := fun w => (Normal (this w), w).

Definition setName (n : string) : M unit :=
  fun w =>
    (Normal tt,
     {| this := {| classes := classes (this w); name := n |};
        store := store w;
        calls := calls w |}).

Definition perform (c : call) : Store -> Store * option Exn :=
  match c with
  | CreateClass n => createClass acts n
  | DisplayModal b => displayModal acts b
  end.

(** Calling a mapped action: the call is logged, the action runs on the
    store, and its exception, if any, propagates. *)
Definition invoke (c : call) : M unit :=
  fun w =>
    let (s', r) := perform c (store w) in
    let w' := {| this := this w; store := s'; calls := calls w ++ [c] |} in
    match r with
    | None => (Normal tt, w')
    | Some e => (Throw e, w')
    end.

Notation "x <- m ;; k" := (bind m (fun x => k))
  (at level 61, m at next level, right associativity).

(** [computed.duplicateName] *)
Definition duplicateName (self : vm) : bool :=
  let index :=
    JSArray.findIndex
      (fun classroom =>
         String.eqb (toUpperCase (Classroom.name classroom))
                    (toUpperCase (name self)))
      (classes self) in
  if Z.eqb index (-1) then false else true.

(** [methods.createNewClass] *)
Definition createNewClass : M unit :=
  self <- getThis ;;
  if negb (duplicateName self)
  then invoke (CreateClass (name self))
  else ret tt.

(** [methods.close] *)
Definition close : M unit := invoke (DisplayModal false).

(** The listeners the template installs:
    [@cancel="close"] on the modal, [v-model.trim="name"] on the text box,
    [@click="close"] on the cancel button and
    [@submit.prevent="createNewClass"] on the form. *)
Inductive event : Type :=
| ModalCancel
| TextboxInput (value : string)
| CancelClick
| FormSubmit.

Definition on (e : event) : M unit :=
  match e with
  | ModalCancel => close
  | TextboxInput value => setName (trim value)
  | CancelClick => close
  | FormSubmit => createNewClass
  end.

(** Effect on the store of a sequence of action calls. *)
Fixpoint replay (cs : list call) (s : Store) : Store :=
  match cs with
  | [] => s
  | c :: rest => replay rest (fst (perform c s))
  end.

End Handlers.

Arguments Normal {Exn A} a.
Arguments Throw {Exn A} e.
Arguments mkWorld {Store} this store calls.
Arguments this {Store} w.
Arguments store {Store} w.
Arguments calls {Store} w.
Arguments createClass {Store Exn} a n s.
Arguments displayModal {Store Exn} a b s.
Arguments on {SB Store Exn} acts e w.
Arguments createNewClass {SB Store Exn} acts w.
Arguments close {Store Exn} acts w.
Arguments replay {Store Exn} acts cs s.
Arguments invoke {Store Exn} acts c w.
Arguments perform {Store Exn} acts c s.

End ClassCreateModal.

(* ------------------------------------------------------------------ *)
(** ** item-list-page.vue *)

Module ItemListPage.

Section Page.

(** Identifiers, numbers and dates are opaque to the component: it only
    passes them on. *)
Variables (Id Num Date : Type).

(** [CoreConstants.ContentNodeKinds.TOPIC] and the two page names of
    [CoachConstants.PageNames] the component refers to. *)
Variable TOPIC : string.
Variables (TOPIC_ITEM_LIST TOPIC_LEARNERS_FOR_ITEM : string).

(** [$tr(key)] and [$tr(key, {count: n})]. *)
Variable tr : string -> option Num -> string.

(** A row of [standardDataTable]. *)
Record row : Type := mkRow {
  id : Id;
  kind : string;
  title : string;
  exerciseCount : Num;
  contentCount : Num;
  exerciseProgress : Num;
  contentProgress : Num;
  lastActive : Date
}.

Record ContentScopeSummary : Type := mkSummary {
  summaryKind : string;
  summaryTitle : string
}.

Record PageState : Type := mkPageState {
  channelId : Id;
  contentScopeSummary : ContentScopeSummary
}.

(** The component instance: the values of its five getters.  The page-level
    [exerciseCount] and [contentCount] getters are [totalExerciseCount] and
    [totalContentCount] here, apart from the row fields of the same names. *)
Record vm : Type := mkVm {
  classId : Id;
  pageState : PageState;
  totalExerciseCount : Num;
  totalContentCount : Num;
  standardDataTable : list row
}.

(** A router location: [{ name, params }], the params in the order of the
    object literal. *)
Record link : Type := mkLink {
  name : string;
  params : list (string * Id)
}.

(** Property lookup on a params object. *)
Fixpoint get (key : string) (o : list (string * Id)) : option Id :=
  match o with
  | [] => None
  | (k, v) :: rest => if String.eqb k key then Some v else get key rest
  end.

(** [methods.genRowLink] *)
Definition genRowLink (self : vm) (r : row) : link :=
  if String.eqb (kind r) TOPIC then
    {| name := TOPIC_ITEM_LIST;
       params := [("classId", classId self);
                  ("channelId", channelId (pageState self));
                  ("topicId", id r)] |}
  else
    {| name := TOPIC_LEARNERS_FOR_ITEM;
       params := [("classId", classId self);
                  ("channelId", channelId (pageState self));
                  ("contentId", id r)] |}.

(** The two object literals of [genRowLink], by name. *)
Definition topicLink (self : vm) (r : row) : link :=
  {| name := TOPIC_ITEM_LIST;
     params := [("classId", classId self);
                ("channelId", channelId (pageState self));
                ("topicId", id r)] |}.

Definition learnersLink (self : vm) (r : row) : link :=
  {| name := TOPIC_LEARNERS_FOR_ITEM;
     params := [("classId", classId self);
                ("channelId", channelId (pageState self));
                ("contentId", id r)] |}.

(** *** The template *)

Inductive attr : Type :=
| AStr (s : string)
| ABool (b : bool)
| ANum (n : Num)
| ADate (d : Date)
| AKey (k : Id)
| ALink (l : link).

#[local] Set Warnings "-register-all".
Inductive vnode : Type :=
| El (tag : string) (attrs : list (string * attr)) (children : list vnode)
| Txt (s : string).

(** U+2022, the separator between the two counts of a name cell. *)
Definition bullet : string :=
  String (ascii_of_nat 226)
    (String (ascii_of_nat 128) (String (ascii_of_nat 162) EmptyString)).

Definition exerciseCountText (n : Num) : string :=
  tr "exerciseCountText" (Some n).

Definition contentCountText (n : Num) : string :=
  tr "contentCountText" (Some n).

(** One [<tr v-for="row in standardDataTable" :key="row.id">]. *)
Definition renderRow (self : vm) (r : row) : vnode :=
  El "tr" [("key", AKey (id r))]
    [ El "name-cell"
        [("kind", AStr (kind r));
         ("title", AStr (title r));
         ("link", ALink (genRowLink self r))]
        [Txt (exerciseCountText (exerciseCount r) ++ " " ++ bullet ++ " "
              ++ contentCountText (contentCount r))];
      El "progress-cell"
        [("num", ANum (exerciseProgress r)); ("isExercise", ABool true)] [];
      El "progress-cell"
        [("num", ANum (contentProgress r)); ("isExercise", ABool false)] [];
      El "activity-cell" [("date", ADate (lastActive r))] [] ].

Definition renderHead : vnode :=
  El "thead" [("slot", AStr "thead")]
    [ El "tr" []
        [ El "header-cell"
            [("text", AStr (tr "name" None)); ("align", AStr "left")] [];
          El "header-cell"
            [("text", AStr (tr "avgExerciseProgress" None))] [];
          El "header-cell"
            [("text", AStr (tr "avgContentProgress" None))] [];
          El "header-cell"
            [("text", AStr (tr "lastActivity" None)); ("align", AStr "left")]
            [] ] ].

Definition render (self : vm) : vnode :=
  El "div" []
    [ El "breadcrumbs" [] [];
      El "h1" []
        [ El "content-icon"
            [("kind", AStr (summaryKind (contentScopeSummary (pageState self))));
             ("colorstyle", AStr "text-default")] [];
          Txt (summaryTitle (contentScopeSummary (pageState self))) ];
      El "div" []
        [ El "ul" []
            [ El "li" [] [Txt (exerciseCountText (totalExerciseCount self))];
              El "li" [] [Txt (contentCountText (totalContentCount self))] ] ];
      El "report-table" []
        [ renderHead;
          El "tbody" [("slot", AStr "tbody")]
            (map (renderRow self) (standardDataTable self)) ] ].

(** *** Inspecting a rendered tree *)

(** First element with the given tag, in document order. *)
Fixpoint findTag (tag : string) (v : vnode) : option vnode :=
  match v with
  | Txt _ => None
  | El t _ children =>
      if String.eqb t tag then Some v
      else
        (fix first (l : list vnode) : option vnode :=
           match l with
           | [] => None
           | c :: rest =>
               match findTag tag c with
               | Some hit => Some hit
               | None => first rest
               end
           end) children
  end.

Definition childrenOf (v : vnode) : list vnode :=
  match v with
  | El _ _ children => children
  | Txt _ => []
  end.

(** The rows of the table body of a rendered page. *)
Definition bodyRows (v : vnode) : option (list vnode) :=
  option_map childrenOf (findTag "tbody" v).

(** The link a rendered body row hands to its name cell. *)
Definition rowLink (v : vnode) : option link :=
  match findTag "name-cell" v with
  | Some (El _ [_; _; (_, ALink l)] _) => Some l
  | _ => None
  end.

End Page.

Arguments id {Id Num Date} r.
Arguments kind {Id Num Date} r.
Arguments classId {Id Num Date} v.
Arguments pageState {Id Num Date} v.
Arguments channelId {Id} p.
Arguments standardDataTable {Id Num Date} v.
Arguments name {Id} l.
Arguments params {Id} l.
Arguments mkLink {Id} name params.
Arguments get {Id} key o.
Arguments genRowLink {Id Num Date} TOPIC TOPIC_ITEM_LIST TOPIC_LEARNERS_FOR_ITEM self r.
Arguments topicLink {Id Num Date} TOPIC_ITEM_LIST self r.
Arguments learnersLink {Id Num Date} TOPIC_LEARNERS_FOR_ITEM self r.
Arguments render {Id Num Date} TOPIC TOPIC_ITEM_LIST TOPIC_LEARNERS_FOR_ITEM tr self.
Arguments renderRow {Id Num Date} TOPIC TOPIC_ITEM_LIST TOPIC_LEARNERS_FOR_ITEM tr self r.
Arguments bodyRows {Id Num Date} v.
Arguments rowLink {Id Num Date} v.

End ItemListPage.

(* ------------------------------------------------------------------ *)
(** ** Sample inputs *)

Module Sample.

Import ClassCreateModal.

(** A store to run the modal against: the names handed to [createClass] so
    far and the modal flag.  [createClass] only records the name. *)
Record classStore : Type := mkStore {
  created : list string;
  modalShown : bool
}.

Definition acts : actions classStore string :=
  {| createClass := fun n s =>
       ({| created := created s ++ [n]; modalShown := modalShown s |}, None);
     displayModal := fun b s =>
       ({| created := created s; modalShown := b |}, None) |}.

(** Actions that always throw, leaving the store as it is. *)
Definition failing : actions classStore string :=
  {| createClass := fun _ s => (s, Some "createClass failed");
     displayModal := fun _ s => (s, Some "displayModal failed") |}.

Definition mathOnly : list Classroom.t := [Classroom.mk "Math"].

(** The modal opened over [mathOnly] with the given draft name. *)
Definition opened (draft : string) : world classStore :=
  {| this := {| classes := mathOnly; name := draft |};
     store := {| created := []; modalShown := true |};
     calls := [] |}.

Definition topicRow : ItemListPage.row string nat nat :=
  ItemListPage.mkRow string nat nat "t1" "topic" "Fractions" 3 4 50 25 7.

Definition videoRow : ItemListPage.row string nat nat :=
  ItemListPage.mkRow string nat nat "v1" "video" "Intro" 0 1 0 80 9.

Definition reportPage (rows : list (ItemListPage.row string nat nat))
  : ItemListPage.vm string nat nat :=
  ItemListPage.mkVm string nat nat
    "class-7"
    (ItemListPage.mkPageState string "channel-2"
       (ItemListPage.mkSummary "topic" "Arithmetic"))
    3 5 rows.

(** A stand-in for [$tr]: the message key itself. *)
Definition words (key : string) (count : option nat) : string := key.

End Sample.

(* ------------------------------------------------------------------ *)
(** ** The modal over a sequence of events *)

Module ClassCreateModalRun.

Import ClassCreateModal.

Section Run.

Context {SB : StringBuiltins} {Store Exn : Type}.
Variable acts : actions Store Exn.

(** The listeners run one after the other, each on the world the previous one
    left.  An exception ends the listener that raised it and none of the
    later ones.  The [classes] prop is the one the component was given: no
    re-render by the parent happens in between. *)
Fixpoint dispatchAll (es : list event) (w : world Store) : world Store :=
  match es with
  | [] => w
  | e :: rest => dispatchAll rest (snd (on acts e w))
  end.

Definition is_cancel (e : event) : bool :=
  match e with
  | ModalCancel | CancelClick => true
  | TextboxInput _ | FormSubmit => false
  end.

Definition is_submit (e : event) : bool :=
  match e with
  | FormSubmit => true
  | ModalCancel | TextboxInput _ | CancelClick => false
  end.

(** The value of the last input event of a sequence, if it has one. *)
Fixpoint lastInput (es : list event) : option string :=
  match es with
  | [] => None
  | e :: rest =>
      match lastInput rest with
      | Some value => Some value
      | None =>
          match e with
          | TextboxInput value => Some value
          | ModalCancel | CancelClick | FormSubmit => None
          end
      end
  end.

End Run.

End ClassCreateModalRun.

(* ------------------------------------------------------------------ *)
(** ** class-create-modal.vue: the template *)

Module ClassCreateModalView.

Import ClassCreateModal.

Section View.

Context {SB : StringBuiltins}.

(** [$tr(key)] *)
Variable tr : string -> string.

(** Attributes: static or bound values, the event a listener raises, and a
    [v-model] binding (the value shown and the event an input raises). *)
Inductive attr : Type :=
| AStr (s : string)
| ABool (b : bool)
| AOn (e : event)
| AModel (value : string) (input : string -> event).

#[local] Set Warnings "-register-all".
Inductive vnode : Type :=
| El (tag : string) (attrs : list (string * attr)) (children : list vnode)
| Txt (s : string).

Definition render (self : vm) : vnode :=
  El "core-modal"
    [("title", AStr (tr "addNewClassTitle")); ("cancel", AOn ModalCancel)]
    [ El "div" []
        [ El "form" [("submit", AOn FormSubmit)]
            [ El "core-textbox"
                [("label", AStr (tr "classname"));
                 ("aria-label", AStr (tr "classname"));
                 ("v-model", AModel (name self) TextboxInput);
                 ("autofocus", ABool true);
                 ("required", ABool true);
                 ("invalid", ABool (duplicateName self));
                 ("error", AStr (tr "duplicateName"));
                 ("type", AStr "text")] [];
              El "section" [("class", AStr "footer")]
                [ El "icon-button"
                    [("class", AStr "undo-btn");
                     ("type", AStr "button");
                     ("text", AStr (tr "cancel"));
                     ("click", AOn CancelClick)] [];
                  El "icon-button"
                    [("class", AStr "create-btn");
                     ("type", AStr "submit");
                     ("text", AStr (tr "create"));
                     ("primary", ABool true)] [] ] ] ] ].

(** First element with the given tag, in document order. *)
Fixpoint findTag (tag : string) (v : vnode) : option vnode :=
  match v with
  | Txt _ => None
  | El t _ children =>
      if String.eqb t tag then Some v
      else
        (fix first (l : list vnode) : option vnode :=
           match l with
           | [] => None
           | c :: rest =>
               match findTag tag c with
               | Some hit => Some hit
               | None => first rest
               end
           end) children
  end.

Fixpoint lookup (key : string) (attrs : list (string * attr)) : option attr :=
  match attrs with
  | [] => None
  | (k, a) :: rest => if String.eqb k key then Some a else lookup key rest
  end.

(** An attribute of the text box of a rendered modal. *)
Definition textboxAttr (key : string) (v : vnode) : option attr :=
  match findTag "core-textbox" v with
  | Some (El _ attrs _) => lookup key attrs
  | _ => None
  end.

End View.

Arguments render {SB} tr self.

End ClassCreateModalView.

(* ------------------------------------------------------------------ *)
(** ** item-list-page.vue: reading the rendered rows *)

Module ItemListPageRows.

Import ItemListPage.

Section Rows.

Context {Id Num Date : Type}.

(** The [:key] of a rendered body row. *)
Definition rowKey (v : vnode Id Num Date) : option Id :=
  match v with
  | El _ _ _ _ [(_, AKey _ _ _ k)] _ => Some k
  | _ => None
  end.

End Rows.

End ItemListPageRows.

(* ------------------------------------------------------------------ *)
(** ** Facts about [findIndex] *)

Module JSArrayFacts.

Import JSArray.

Lemma findIndexFrom_hit {A : Type} (p : A -> bool) (l : list A) :
  forall i, findIndexFrom p l i <> (-1)%Z -> exists x, In x l /\ p x = true.
Proof.
  induction l as [|a l IH]; simpl; intros i H.
  - congruence.
  - destruct (p a) eqn:Ea.
    + exists a; auto.
    + destruct (IH _ H) as [x [Hin Hp]]. exists x; auto.
Qed.

Lemma findIndexFrom_miss {A : Type} (p : A -> bool) (l : list A) :
  forall i, (0 <= i)%Z -> findIndexFrom p l i = (-1)%Z ->
  forall x, In x l -> p x = false.
Proof.
  induction l as [|a l IH]; simpl; intros i Hi H x Hin.
  - contradiction.
  - destruct (p a) eqn:Ea; [lia|].
    destruct Hin as [<-|Hin]; [assumption|].
    apply (IH (i + 1)%Z); auto; lia.
Qed.

(** [findIndex] answers [-1] exactly when no element satisfies the callback. *)
Lemma findIndex_found {A : Type} (p : A -> bool) (l : list A) :
  findIndex p l <> (-1)%Z <-> exists x, In x l /\ p x = true.
Proof.
  unfold findIndex; split.
  - apply findIndexFrom_hit.
  - intros [x [Hin Hp]] H.
    rewrite (findIndexFrom_miss p l 0%Z ltac:(lia) H x Hin) in Hp; discriminate.
Qed.

Lemma findIndex_nil {A : Type} (p : A -> bool) : findIndex p [] = (-1)%Z.
Proof. reflexivity. Qed.

End JSArrayFacts.

(* ------------------------------------------------------------------ *)
(** ** The class-creation modal *)

Module ClassCreateModalFacts.

Import ClassCreateModal.

Section Generic.

Context {SB : StringBuiltins} {Store Exn : Type}.
Variable acts : actions Store Exn.

(** C2. The duplicate-name check answers [true] exactly when the upper-cased
    draft name equals the upper-cased name of some classroom of the list. *)
Theorem duplicateName_iff (self : vm) :
  duplicateName self = true <->
  exists classroom,
    In classroom (classes self) /\
    toUpperCase (Classroom.name classroom) = toUpperCase (name self).
Proof.
  unfold duplicateName.
  match goal with |- context [JSArray.findIndex ?p ?l] =>
    pose proof (JSArrayFacts.findIndex_found p l) as Hfound;
    destruct (Z.eqb_spec (JSArray.findIndex p l) (-1)) as [Heq|Hne]
  end.
  - split; [discriminate|].
    intros [c [Hin Hup]]. exfalso.
    assert (Hex : exists x, In x (classes self) /\
              String.eqb (toUpperCase (Classroom.name x))
                         (toUpperCase (name self)) = true).
    { exists c; split; [assumption|]. now apply String.eqb_eq. }
    apply Hfound in Hex. contradiction.
  - split; [intros _|reflexivity].
    destruct (proj1 Hfound Hne) as [c [Hin Hp]].
    exists c; split; [assumption|]. now apply String.eqb_eq.
Qed.

(** What one [invoke] does to the world. *)
Lemma invoke_world (c : call) (w : world Store) :
  snd (invoke acts c w) =
  {| this := this w;
     store := fst (perform acts c (store w));
     calls := calls w ++ [c] |}.
Proof.
  unfold invoke. destruct (perform acts c (store w)) as [s' [e|]];
    reflexivity.
Qed.

Lemma submit_unfold (w : world Store) :
  on acts FormSubmit w =
  if duplicateName (this w)
  then (Normal tt, w)
  else invoke acts (CreateClass (name (this w))) w.
Proof.
  unfold on, createNewClass, bind, getThis, ret.
  destruct (duplicateName (this w)); simpl;
    [reflexivity | now destruct (invoke _ _ w) as [[[]|e] w']].
Qed.

Lemma cancel_unfold (w : world Store) :
  on acts ModalCancel w = invoke acts (DisplayModal false) w /\
  on acts CancelClick w = invoke acts (DisplayModal false) w.
Proof. split; reflexivity. Qed.

(** C1, as the component implements it.  Submitting a draft name that is not a
    duplicate invokes [createClass] exactly once, with that name, and is the
    handler's only call: the handler itself requests no hiding of the modal.
    The store is the one [createClass] leaves, and the handler completes as
    [createClass] does. *)
Theorem submit_fresh_name_creates_once (w : world Store) :
  duplicateName (this w) = false ->
  let r := on acts FormSubmit w in
  calls (snd r) = (calls w ++ [CreateClass (name (this w))])%list /\
  count_occ call_eq_dec (calls (snd r)) (DisplayModal false) =
    count_occ call_eq_dec (calls w) (DisplayModal false) /\
  this (snd r) = this w /\
  store (snd r) = fst (createClass acts (name (this w)) (store w)) /\
  fst r = match snd (createClass acts (name (this w)) (store w)) with
          | None => Normal tt
          | Some e => Throw e
          end.
Proof.
  intros Hfresh r. subst r. rewrite submit_unfold, Hfresh.
  rewrite invoke_world. simpl. repeat split.
  - rewrite count_occ_app. simpl. lia.
  - unfold invoke, perform.
    now destruct (createClass acts (name (this w)) (store w)) as [s' [e|]].
Qed.

(** C3. Submitting a duplicate draft name changes nothing: no action is
    invoked, the store and the component are as before, and the handler
    returns normally. *)
Theorem submit_duplicate_blocked (w : world Store) :
  duplicateName (this w) = true ->
  on acts FormSubmit w = (Normal tt, w).
Proof.
  intros Hdup. rewrite submit_unfold. now rewrite Hdup.
Qed.

(** C4. Both cancel listeners invoke [displayModal false] exactly once and
    nothing else; in particular the [createClass] calls are those made
    before. *)
Theorem cancel_hides_without_creating (w : world Store) :
  let cancelled (r : completion Exn unit * world Store) :=
    calls (snd r) = (calls w ++ [DisplayModal false])%list /\
    filter is_create (calls (snd r)) = filter is_create (calls w) /\
    this (snd r) = this w /\
    store (snd r) = fst (displayModal acts false (store w)) in
  cancelled (on acts ModalCancel w) /\ cancelled (on acts CancelClick w).
Proof.
  intros cancelled. subst cancelled. cbv beta.
  destruct (cancel_unfold w) as [-> ->].
  rewrite invoke_world. simpl.
  assert (Hf : filter is_create (calls w ++ [DisplayModal false])%list =
               filter is_create (calls w)).
  { rewrite filter_app. simpl. apply app_nil_r. }
  repeat split; assumption.
Qed.

(** C6. An input event stores the trimmed value as the draft name, leaving
    everything else alone; the duplicate check and the [createClass] call of a
    following submission both work on that trimmed string. *)
Theorem draft_name_is_trimmed_input (w : world Store) (value : string) :
  let typed :=
    {| this := {| classes := classes (this w); name := trim value |};
       store := store w;
       calls := calls w |} in
  on acts (TextboxInput value) w = (Normal tt, typed) /\
  duplicateName (this typed) =
    negb (Z.eqb
            (JSArray.findIndex
               (fun classroom =>
                  String.eqb (toUpperCase (Classroom.name classroom))
                             (toUpperCase (trim value)))
               (classes (this w)))
            (-1)) /\
  calls (snd (on acts FormSubmit typed)) =
    (calls w ++ (if duplicateName (this typed)
                 then []
                 else [CreateClass (trim value)]))%list.
Proof.
  intros typed. split; [reflexivity|]. split.
  - unfold duplicateName. simpl.
    now destruct (Z.eqb _ _).
  - rewrite submit_unfold.
    destruct (duplicateName (this typed)).
    + simpl. now rewrite app_nil_r.
    + now rewrite invoke_world.
Qed.

(** C8. Over an empty classroom list no draft name is a duplicate, the empty
    string included, and a submission always invokes [createClass] with the
    draft name. *)
Theorem empty_class_list_always_creates
    (draft : string) (s : Store) (log : list call) :
  let w := {| this := {| classes := []; name := draft |};
              store := s;
              calls := log |} in
  duplicateName (this w) = false /\
  calls (snd (on acts FormSubmit w)) = (log ++ [CreateClass draft])%list.
Proof.
  intros w.
  assert (Hfresh : duplicateName (this w) = false) by reflexivity.
  split; [assumption|].
  rewrite submit_unfold, Hfresh. now rewrite invoke_world.
Qed.

(** C9. The submit and cancel handlers leave the component instance, that is
    the [classes] prop and the draft name, as they found it.  What they add
    to the call log are [createClass] calls with the draft name and
    [displayModal false] calls, and the store changes only as those calls
    change it. *)
Theorem handlers_leave_component_untouched (w : world Store) :
  let framed (e : event) :=
    this (snd (on acts e w)) = this w /\
    exists cs,
      calls (snd (on acts e w)) = (calls w ++ cs)%list /\
      store (snd (on acts e w)) = replay acts cs (store w) /\
      Forall (fun c => c = CreateClass (name (this w)) \/ c = DisplayModal false)
             cs in
  framed FormSubmit /\ framed ModalCancel /\ framed CancelClick.
Proof.
  intros framed. subst framed. cbv beta.
  destruct (cancel_unfold w) as [-> ->].
  rewrite submit_unfold.
  assert (Hinv : forall c,
            c = CreateClass (name (this w)) \/ c = DisplayModal false ->
            this (snd (invoke acts c w)) = this w /\
            exists cs,
              calls (snd (invoke acts c w)) = (calls w ++ cs)%list /\
              store (snd (invoke acts c w)) = replay acts cs (store w) /\
              Forall (fun c => c = CreateClass (name (this w)) \/
                               c = DisplayModal false) cs).
  { intros c Hc. rewrite invoke_world. simpl. split; [reflexivity|].
    exists [c]. repeat split. constructor; [assumption|constructor]. }
  split; [|split]; try (apply Hinv; now right).
  destruct (duplicateName (this w)).
  - simpl. split; [reflexivity|]. exists []. rewrite app_nil_r.
    repeat split. constructor.
  - apply Hinv; now left.
Qed.

End Generic.

(** *** The modal on sample inputs *)

Section Runs.

#[local] Existing Instance AsciiBuiltins.builtins.

(** C1, as stated, fails.  With classrooms [[{name: "Math"}]] and the draft
    name ["Science"] the submission calls [createClass "Science"] and nothing
    else: the call log holds no [displayModal false], so its number of
    hide requests is not one. *)
Lemma submit_fresh_name_requests_no_hide :
  duplicateName (this (Sample.opened "Science")) = false /\
  calls (snd (on Sample.acts FormSubmit (Sample.opened "Science"))) =
    [CreateClass "Science"] /\
  count_occ call_eq_dec
    (calls (snd (on Sample.acts FormSubmit (Sample.opened "Science"))))
    (DisplayModal false) <> 1.
Proof.
  split; [reflexivity|]. split; [reflexivity|].
  vm_compute. discriminate.
Qed.

Lemma submit_fresh_name_creates_once_witness :
  duplicateName (this (Sample.opened "Science")) = false /\
  calls (snd (on Sample.acts FormSubmit (Sample.opened "Science"))) =
    [CreateClass "Science"].
Proof.
  split; [reflexivity|].
  apply (submit_fresh_name_creates_once Sample.acts (Sample.opened "Science")).
  reflexivity.
Defined.

Lemma submit_duplicate_blocked_witness :
  duplicateName (this (Sample.opened "math")) = true /\
  on Sample.acts FormSubmit (Sample.opened "math") =
    (Normal tt, Sample.opened "math").
Proof.
  split; [reflexivity|].
  apply (submit_duplicate_blocked Sample.acts (Sample.opened "math")).
  reflexivity.
Defined.

(** A duplicate is blocked before any action is reached: even with actions
    that always throw the handler returns normally. *)
Example submit_duplicate_never_throws :
  on Sample.failing FormSubmit (Sample.opened "MATH") =
    (Normal tt, Sample.opened "MATH").
Proof. reflexivity. Qed.

Example cancel_logs_the_call_even_when_it_throws :
  on Sample.failing CancelClick (Sample.opened "Science") =
    (Throw "displayModal failed",
     {| this := this (Sample.opened "Science");
        store := store (Sample.opened "Science");
        calls := [DisplayModal false] |}).
Proof. reflexivity. Qed.

Example typing_then_submitting :
  let typed := snd (on Sample.acts (TextboxInput "  Science ") (Sample.opened "")) in
  name (this typed) = "Science" /\
  calls (snd (on Sample.acts FormSubmit typed)) = [CreateClass "Science"].
Proof. split; reflexivity. Qed.

Example typing_a_padded_duplicate :
  let typed := snd (on Sample.acts (TextboxInput " math  ") (Sample.opened "")) in
  duplicateName (this typed) = true /\
  calls (snd (on Sample.acts FormSubmit typed)) = [].
Proof. split; reflexivity. Qed.

End Runs.

End ClassCreateModalFacts.

(* ------------------------------------------------------------------ *)
(** ** The item-list report page *)

Module ItemListPageFacts.

Import ItemListPage.

Section Generic.

Context {Id Num Date : Type}.
Variables (TOPIC TOPIC_ITEM_LIST TOPIC_LEARNERS_FOR_ITEM : string).
Variable tr : string -> option Num -> string.

Local Abbreviation genRowLink :=
  (genRowLink TOPIC TOPIC_ITEM_LIST TOPIC_LEARNERS_FOR_ITEM).
Local Abbreviation topicLink := (topicLink TOPIC_ITEM_LIST).
Local Abbreviation learnersLink := (learnersLink TOPIC_LEARNERS_FOR_ITEM).
Local Abbreviation render :=
  (render TOPIC TOPIC_ITEM_LIST TOPIC_LEARNERS_FOR_ITEM tr).
Local Abbreviation renderRow :=
  (renderRow TOPIC TOPIC_ITEM_LIST TOPIC_LEARNERS_FOR_ITEM tr).

Lemma links_differ (self : vm Id Num Date) (r : row Id Num Date) :
  topicLink self r <> learnersLink self r.
Proof. unfold ItemListPage.topicLink, ItemListPage.learnersLink. intros H. discriminate H. Qed.

Lemma genRowLink_topic (self : vm Id Num Date) (r : row Id Num Date) :
  kind r = TOPIC -> genRowLink self r = topicLink self r.
Proof.
  intros H. unfold ItemListPage.genRowLink.
  now rewrite (proj2 (String.eqb_eq _ _) H).
Qed.

Lemma genRowLink_other (self : vm Id Num Date) (r : row Id Num Date) :
  kind r <> TOPIC -> genRowLink self r = learnersLink self r.
Proof.
  intros H. unfold ItemListPage.genRowLink.
  now rewrite (proj2 (String.eqb_neq _ _) H).
Qed.

Lemma genRowLink_shapes (self : vm Id Num Date) (r : row Id Num Date) :
  genRowLink self r = topicLink self r \/
  genRowLink self r = learnersLink self r.
Proof.
  destruct (string_dec (kind r) TOPIC) as [Hk|Hk].
  - left. now apply genRowLink_topic.
  - right. now apply genRowLink_other.
Qed.

(** The table body of the rendered page holds one row per entry of
    [standardDataTable], in order. *)
Lemma bodyRows_render (self : vm Id Num Date) :
  bodyRows (render self) = Some (map (renderRow self) (standardDataTable self)).
Proof. reflexivity. Qed.

(** C5. The link of a row is the topic item-list location, with the row's id
    as [topicId], exactly when the row's kind is the topic kind, and the
    learners-for-item location, with the row's id as [contentId], exactly
    when it is not.  Either way its [classId] and [channelId] are those of the
    component's state, and it is the link the rendered row gives its name
    cell. *)
Theorem genRowLink_by_kind (self : vm Id Num Date) (r : row Id Num Date) :
  (genRowLink self r = topicLink self r <-> kind r = TOPIC) /\
  (genRowLink self r = learnersLink self r <-> kind r <> TOPIC) /\
  get "classId" (params (genRowLink self r)) = Some (classId self) /\
  get "channelId" (params (genRowLink self r)) = Some (channelId (pageState self)) /\
  get "topicId" (params (topicLink self r)) = Some (id r) /\
  get "contentId" (params (learnersLink self r)) = Some (id r) /\
  rowLink (renderRow self r) = Some (genRowLink self r).
Proof.
  pose proof (links_differ self r) as Hdiff.
  assert (Hrest :
    get "classId" (params (genRowLink self r)) = Some (classId self) /\
    get "channelId" (params (genRowLink self r)) = Some (channelId (pageState self)) /\
    get "topicId" (params (topicLink self r)) = Some (id r) /\
    get "contentId" (params (learnersLink self r)) = Some (id r) /\
    rowLink (renderRow self r) = Some (genRowLink self r)).
  { destruct (genRowLink_shapes self r) as [E|E]; rewrite E at 1 2;
      repeat split; reflexivity. }
  destruct (string_dec (kind r) TOPIC) as [Hk|Hk].
  - rewrite (genRowLink_topic self r Hk) at 1 2.
    split; [|split]; [tauto | | exact Hrest].
    split; intros H; contradiction.
  - rewrite (genRowLink_other self r Hk) at 1 2.
    split; [|split]; [| tauto | exact Hrest].
    split; intros H; [symmetry in H|]; contradiction.
Qed.

(** C7. With no rows the table body of the rendered page is empty; rendering
    always yields a tree. *)
Theorem empty_table_renders_no_rows (self : vm Id Num Date) :
  standardDataTable self = [] ->
  bodyRows (render self) = Some [].
Proof.
  intros Hempty. rewrite bodyRows_render. now rewrite Hempty.
Qed.

(** C10. [genRowLink] answers for every row, with one of its two locations:
    a row of any kind other than the topic kind gets the learners-for-item
    location. *)
Theorem genRowLink_total (self : vm Id Num Date) (r : row Id Num Date) :
  (genRowLink self r = topicLink self r \/
   genRowLink self r = learnersLink self r) /\
  (kind r <> TOPIC ->
   genRowLink self r = learnersLink self r /\
   name (genRowLink self r) = TOPIC_LEARNERS_FOR_ITEM /\
   get "contentId" (params (genRowLink self r)) = Some (id r) /\
   get "topicId" (params (genRowLink self r)) = None).
Proof.
  split; [apply genRowLink_shapes|].
  intros Hk. rewrite (genRowLink_other self r Hk). repeat split.
Qed.

End Generic.

(** *** The page on sample inputs *)

Section Runs.

Local Abbreviation link_of :=
  (genRowLink "topic" "TOPIC_ITEM_LIST" "TOPIC_LEARNERS_FOR_ITEM").
Local Abbreviation page_of :=
  (render "topic" "TOPIC_ITEM_LIST" "TOPIC_LEARNERS_FOR_ITEM" Sample.words).

Example topic_row_link :
  link_of (Sample.reportPage []) Sample.topicRow =
  {| name := "TOPIC_ITEM_LIST";
     params := [("classId", "class-7"); ("channelId", "channel-2");
                ("topicId", "t1")] |}.
Proof. reflexivity. Qed.

Example video_row_link :
  link_of (Sample.reportPage []) Sample.videoRow =
  {| name := "TOPIC_LEARNERS_FOR_ITEM";
     params := [("classId", "class-7"); ("channelId", "channel-2");
                ("contentId", "v1")] |}.
Proof. reflexivity. Qed.

Example two_rows_rendered :
  option_map (@List.length _)
    (bodyRows (page_of (Sample.reportPage [Sample.topicRow; Sample.videoRow])))
  = Some 2.
Proof. reflexivity. Qed.

Lemma empty_table_renders_no_rows_witness :
  standardDataTable (Sample.reportPage []) = [] /\
  bodyRows (page_of (Sample.reportPage [])) = Some [].
Proof.
  split; [reflexivity|].
  apply (empty_table_renders_no_rows
           "topic" "TOPIC_ITEM_LIST" "TOPIC_LEARNERS_FOR_ITEM" Sample.words
           (Sample.reportPage [])).
  reflexivity.
Defined.

Lemma genRowLink_total_witness :
  kind Sample.videoRow <> "topic" /\
  link_of (Sample.reportPage []) Sample.videoRow =
    learnersLink "TOPIC_LEARNERS_FOR_ITEM" (Sample.reportPage []) Sample.videoRow.
Proof.
  assert (Hk : kind Sample.videoRow <> "topic") by (simpl; discriminate).
  split; [exact Hk|].
  exact (proj1 (proj2 (genRowLink_total
                         "topic" "TOPIC_ITEM_LIST" "TOPIC_LEARNERS_FOR_ITEM"
                         (Sample.reportPage []) Sample.videoRow) Hk)).
Defined.

End Runs.

End ItemListPageFacts.

(* ------------------------------------------------------------------ *)
(** ** More on the duplicate check *)

Module DuplicateNameFacts.

Import ClassCreateModal.

Section Generic.

Context {SB : StringBuiltins}.

(** The check as a search: some classroom's upper-cased name is the
    upper-cased draft. *)
Lemma duplicateName_existsb (self : vm) :
  duplicateName self =
  existsb (fun classroom =>
             String.eqb (toUpperCase (Classroom.name classroom))
                        (toUpperCase (name self)))
          (classes self).
Proof.
  unfold duplicateName.
  match goal with |- context [JSArray.findIndex ?p ?l] =>
    pose proof (JSArrayFacts.findIndex_found p l) as Hfound;
    destruct (Z.eqb_spec (JSArray.findIndex p l) (-1)) as [Heq|Hne];
    destruct (existsb p l) eqn:Hex; try reflexivity
  end.
  - apply existsb_exists in Hex. apply Hfound in Hex. contradiction.
  - apply Hfound in Hne. apply existsb_exists in Hne. congruence.
Qed.

Lemma existsb_incl {A : Type} (p : A -> bool) (l l' : list A) :
  (forall x, In x l -> In x l') -> existsb p l = true -> existsb p l' = true.
Proof.
  intros Hincl H. apply existsb_exists in H. destruct H as [x [Hin Hp]].
  apply existsb_exists. exists x; auto.
Qed.

(** X1. The verdict depends on which classrooms the list holds, not on their
    order or on repetitions. *)
Theorem duplicate_depends_on_members
    (l l' : list Classroom.t) (draft : string) :
  (forall classroom, In classroom l <-> In classroom l') ->
  duplicateName {| classes := l; name := draft |} =
  duplicateName {| classes := l'; name := draft |}.
Proof.
  intros Hsame. rewrite !duplicateName_existsb. simpl.
  apply Bool.eq_true_iff_eq. split; apply existsb_incl; intros x Hx;
    now apply Hsame.
Qed.

(** X2. A draft that duplicates a name of a list duplicates a name of every
    list holding at least the same classrooms. *)
Theorem duplicate_monotone (l l' : list Classroom.t) (draft : string) :
  (forall classroom, In classroom l -> In classroom l') ->
  duplicateName {| classes := l; name := draft |} = true ->
  duplicateName {| classes := l'; name := draft |} = true.
Proof.
  intros Hincl. rewrite !duplicateName_existsb. simpl.
  now apply existsb_incl.
Qed.

End Generic.

Section Runs.

#[local] Existing Instance AsciiBuiltins.builtins.

Lemma duplicate_depends_on_members_witness :
  duplicateName
    {| classes := [Classroom.mk "Math"; Classroom.mk "Art"]; name := "art" |} =
  duplicateName
    {| classes := [Classroom.mk "Art"; Classroom.mk "Math"; Classroom.mk "Art"];
       name := "art" |}.
Proof.
  apply duplicate_depends_on_members.
  intros c; simpl; tauto.
Defined.

Lemma duplicate_monotone_witness :
  duplicateName
    {| classes := [Classroom.mk "Math"; Classroom.mk "Art"]; name := "MATH" |}
  = true.
Proof.
  apply (duplicate_monotone Sample.mathOnly).
  - intros c; simpl; tauto.
  - reflexivity.
Defined.

End Runs.

End DuplicateNameFacts.

(* ------------------------------------------------------------------ *)
(** ** The modal over a sequence of events *)

Module ClassCreateModalRunFacts.

Import ClassCreateModal ClassCreateModalRun.

Section Generic.

Context {SB : StringBuiltins} {Store Exn : Type}.
Variable acts : actions Store Exn.

Lemma replay_app (cs cs' : list call) (s : Store) :
  replay acts (cs ++ cs') s = replay acts cs' (replay acts cs s).
Proof.
  revert s. induction cs as [|c cs IH]; simpl; intros s; [reflexivity|].
  apply IH.
Qed.

(** What one listener does: the calls it adds, the store they leave, and the
    component afterwards. *)
Lemma on_step (e : event) (w : world Store) :
  let cs :=
    match e with
    | FormSubmit =>
        if duplicateName (this w) then [] else [CreateClass (name (this w))]
    | TextboxInput _ => []
    | ModalCancel | CancelClick => [DisplayModal false]
    end in
  calls (snd (on acts e w)) = (calls w ++ cs)%list /\
  store (snd (on acts e w)) = replay acts cs (store w) /\
  classes (this (snd (on acts e w))) = classes (this w) /\
  name (this (snd (on acts e w))) =
    match e with
    | TextboxInput value => trim value
    | ModalCancel | CancelClick | FormSubmit => name (this w)
    end.
Proof.
  destruct e; cbv zeta.
  - rewrite (proj1 (ClassCreateModalFacts.cancel_unfold acts w)).
    rewrite ClassCreateModalFacts.invoke_world. simpl. auto.
  - simpl. rewrite app_nil_r. auto.
  - rewrite (proj2 (ClassCreateModalFacts.cancel_unfold acts w)).
    rewrite ClassCreateModalFacts.invoke_world. simpl. auto.
  - rewrite ClassCreateModalFacts.submit_unfold.
    destruct (duplicateName (this w)).
    + simpl. rewrite app_nil_r. auto.
    + rewrite ClassCreateModalFacts.invoke_world. simpl. auto.
Qed.

(** X3. Whatever the events, the component asks only for the creation of
    names that duplicate none of its [classes] prop, never asks for the modal
    to be shown, and keeps the prop as it was. *)
Theorem run_creates_only_fresh_names (es : list event) (w : world Store) :
  exists added,
    calls (dispatchAll acts es w) = (calls w ++ added)%list /\
    Forall (fun c =>
              match c with
              | CreateClass n =>
                  duplicateName {| classes := classes (this w); name := n |}
                  = false
              | DisplayModal visible => visible = false
              end) added /\
    classes (this (dispatchAll acts es w)) = classes (this w).
Proof.
  revert w. induction es as [|e es IH]; intros w; simpl.
  - exists []. rewrite app_nil_r. repeat split. constructor.
  - destruct (on_step e w) as [Hcalls [_ [Hcls _]]].
    destruct (IH (snd (on acts e w))) as [added [Hadd [Hok Hsame]]].
    rewrite Hcls in Hok.
    eexists. split; [rewrite Hadd, Hcalls, <- app_assoc; reflexivity|].
    split; [|congruence].
    apply Forall_app. split; [|assumption].
    destruct e; repeat constructor.
    destruct (duplicateName (this w)) eqn:Hdup; repeat constructor.
    destruct (this w); exact Hdup.
Qed.

(** X4. Over any events the store is what the added calls, replayed in
    order, leave of it; there is one [displayModal false] per cancel event
    and at most one [createClass] per submission. *)
Theorem run_calls_follow_events (es : list event) (w : world Store) :
  exists added,
    calls (dispatchAll acts es w) = (calls w ++ added)%list /\
    store (dispatchAll acts es w) = replay acts added (store w) /\
    filter (fun c => negb (is_create c)) added =
      repeat (DisplayModal false) (List.length (filter is_cancel es)) /\
    List.length (filter is_create added) <= List.length (filter is_submit es).
Proof.
  revert w. induction es as [|e es IH]; intros w; simpl.
  - exists []. rewrite app_nil_r. repeat split. constructor.
  - destruct (on_step e w) as [Hcalls [Hstore _]].
    destruct (IH (snd (on acts e w))) as [added [Hadd [Hrep [Hhide Hcreate]]]].
    eexists. split; [rewrite Hadd, Hcalls, <- app_assoc; reflexivity|].
    split; [rewrite Hrep, Hstore, replay_app; reflexivity|].
    rewrite !filter_app, List.length_app, Hhide.
    destruct e; simpl; try (split; [reflexivity|lia]).
    destruct (duplicateName (this w)); simpl; split; try reflexivity; lia.
Qed.

(** X5. After any events the draft name is the trimmed value of the last
    input event, and the name before them when there was none. *)
Theorem run_draft_is_last_input (es : list event) (w : world Store) :
  name (this (dispatchAll acts es w)) =
  match lastInput es with
  | Some value => trim value
  | None => name (this w)
  end.
Proof.
  revert w. induction es as [|e es IH]; intros w; simpl; [reflexivity|].
  rewrite IH. destruct (lastInput es); [reflexivity|].
  destruct (on_step e w) as [_ [_ [_ Hname]]]. rewrite Hname.
  now destruct e.
Qed.


End Generic.

Section Runs.

#[local] Existing Instance AsciiBuiltins.builtins.

Example a_session :
  let w := dispatchAll Sample.acts
             [TextboxInput " math"; FormSubmit; TextboxInput "Art "; FormSubmit;
              FormSubmit; CancelClick]
             (Sample.opened "") in
  calls w = [CreateClass "Art"; CreateClass "Art"; DisplayModal false] /\
  name (this w) = "Art" /\
  Sample.created (store w) = ["Art"; "Art"] /\
  Sample.modalShown (store w) = false.
Proof. repeat split. Qed.


End Runs.

End ClassCreateModalRunFacts.

(* ------------------------------------------------------------------ *)
(** ** The modal's template *)

Module ClassCreateModalViewFacts.

Import ClassCreateModal ClassCreateModalView.

Section Generic.

Context {SB : StringBuiltins} {Store Exn : Type}.
Variable acts : actions Store Exn.
Variable tr : string -> string.

Lemma log_grows (c : call) (w : world Store) :
  snd (invoke acts c w) <> w.
Proof.
  rewrite ClassCreateModalFacts.invoke_world. intros H.
  apply (f_equal (fun v => List.length (calls v))) in H. simpl in H.
  rewrite List.length_app in H. simpl in H. lia.
Qed.

(** X7. The text box shows the draft name, and it is flagged invalid exactly
    when a submission would do nothing; it is not flagged exactly when a
    submission calls [createClass] with the draft name. *)
Theorem invalid_flag_matches_submit (w : world Store) :
  textboxAttr "v-model" (render tr (this w)) =
    Some (AModel (name (this w)) TextboxInput) /\
  exists flagged,
    textboxAttr "invalid" (render tr (this w)) = Some (ABool flagged) /\
    (flagged = true <-> on acts FormSubmit w = (Normal tt, w)) /\
    (flagged = false <->
     calls (snd (on acts FormSubmit w)) =
       (calls w ++ [CreateClass (name (this w))])%list).
Proof.
  split; [reflexivity|].
  exists (duplicateName (this w)). split; [reflexivity|].
  rewrite ClassCreateModalFacts.submit_unfold.
  destruct (duplicateName (this w)).
  - split; [tauto|]. split; [discriminate|].
    simpl. intros H. apply (f_equal (@List.length _)) in H.
    rewrite List.length_app in H. simpl in H. lia.
  - split.
    + split; [discriminate|]. intros H.
      apply (f_equal snd) in H. simpl in H. now apply log_grows in H.
    + rewrite ClassCreateModalFacts.invoke_world. simpl. tauto.
Qed.

End Generic.

Section Runs.

#[local] Existing Instance AsciiBuiltins.builtins.

Example flagged_on_a_duplicate :
  textboxAttr "invalid" (render (fun key => key) (this (Sample.opened "MATH")))
  = Some (ABool true).
Proof. reflexivity. Qed.

Example not_flagged_on_a_fresh_name :
  textboxAttr "invalid" (render (fun key => key) (this (Sample.opened "Art")))
  = Some (ABool false).
Proof. reflexivity. Qed.

End Runs.

End ClassCreateModalViewFacts.

(* ------------------------------------------------------------------ *)
(** ** More on the rows of the report page *)

Module ItemListPageRowsFacts.

Import ItemListPage ItemListPageRows.

Section Generic.

Context {Id Num Date : Type}.
Variables (TOPIC TOPIC_ITEM_LIST TOPIC_LEARNERS_FOR_ITEM : string).
Variable tr : string -> option Num -> string.

Local Abbreviation genRowLink :=
  (genRowLink TOPIC TOPIC_ITEM_LIST TOPIC_LEARNERS_FOR_ITEM).
Local Abbreviation topicLink := (topicLink TOPIC_ITEM_LIST).
Local Abbreviation learnersLink := (learnersLink TOPIC_LEARNERS_FOR_ITEM).
Local Abbreviation render :=
  (render TOPIC TOPIC_ITEM_LIST TOPIC_LEARNERS_FOR_ITEM tr).
Local Abbreviation renderRow :=
  (renderRow TOPIC TOPIC_ITEM_LIST TOPIC_LEARNERS_FOR_ITEM tr).

Lemma genRowLink_cases (self : vm Id Num Date) (r : row Id Num Date) :
  (kind r = TOPIC /\ genRowLink self r = topicLink self r) \/
  (kind r <> TOPIC /\ genRowLink self r = learnersLink self r).
Proof.
  destruct (string_dec (kind r) TOPIC) as [Hk|Hk]; [left|right]; split;
    auto using ItemListPageFacts.genRowLink_topic,
               ItemListPageFacts.genRowLink_other.
Qed.

(** X8. Two rows get the same link exactly when they have the same id and
    are both topics or both not: the link tells the row's id and whether it
    is a topic, and nothing else of the row enters it. *)
Theorem genRowLink_eq_iff (self : vm Id Num Date) (r r' : row Id Num Date) :
  genRowLink self r = genRowLink self r' <->
  id r = id r' /\ (kind r = TOPIC <-> kind r' = TOPIC).
Proof.
  destruct (genRowLink_cases self r) as [[Hk ->]|[Hk ->]];
    destruct (genRowLink_cases self r') as [[Hk' ->]|[Hk' ->]];
    unfold ItemListPage.topicLink, ItemListPage.learnersLink; split.
  - intros H. injection H as H. split; [assumption|tauto].
  - intros [-> _]. reflexivity.
  - intros H. discriminate H.
  - intros [_ H]. tauto.
  - intros H. discriminate H.
  - intros [_ H]. tauto.
  - intros H. injection H as H. split; [assumption|tauto].
  - intros [-> _]. reflexivity.
Qed.

(** X9. The params of a link hold three entries, and exactly one of
    [topicId] and [contentId]: [topicId] for a topic row, [contentId] for any
    other, with the row's id as its value. *)
Theorem genRowLink_one_id_key (self : vm Id Num Date) (r : row Id Num Date) :
  List.length (params (genRowLink self r)) = 3 /\
  ((kind r = TOPIC /\
    get "topicId" (params (genRowLink self r)) = Some (id r) /\
    get "contentId" (params (genRowLink self r)) = None) \/
   (kind r <> TOPIC /\
    get "topicId" (params (genRowLink self r)) = None /\
    get "contentId" (params (genRowLink self r)) = Some (id r))).
Proof.
  destruct (genRowLink_cases self r) as [[Hk ->]|[Hk ->]];
    (split; [reflexivity|]); [left|right]; repeat split; assumption.
Qed.

(** X10. The table body is rendered row for row from [standardDataTable]:
    the keys of the rendered rows are the ids of the data rows, in order,
    the link of each is [genRowLink] of its data row, and every link carries
    the [classId] and [channelId] of the page. *)
Theorem rendered_rows_follow_table (self : vm Id Num Date) :
  exists rendered,
    bodyRows (render self) = Some rendered /\
    map rowKey rendered =
      map (fun r => Some (id r)) (standardDataTable self) /\
    map rowLink rendered =
      map (fun r => Some (genRowLink self r)) (standardDataTable self) /\
    Forall (fun v =>
              exists l,
                rowLink v = Some l /\
                get "classId" (params l) = Some (classId self) /\
                get "channelId" (params l) = Some (channelId (pageState self)))
           rendered.
Proof.
  exists (map (renderRow self) (standardDataTable self)).
  split; [reflexivity|]. rewrite !map_map.
  split; [reflexivity|]. split; [reflexivity|].
  apply Forall_forall. intros v Hv. apply in_map_iff in Hv.
  destruct Hv as [r [<- _]]. exists (genRowLink self r).
  split; [reflexivity|].
  destruct (genRowLink_cases self r) as [[_ ->]|[_ ->]]; split; reflexivity.
Qed.

End Generic.

Section Runs.

Example duplicate_ids_give_duplicate_keys :
  option_map (map rowKey)
    (bodyRows
       (render "topic" "TOPIC_ITEM_LIST" "TOPIC_LEARNERS_FOR_ITEM" Sample.words
          (Sample.reportPage [Sample.videoRow; Sample.topicRow; Sample.videoRow])))
  = Some [Some "v1"; Some "t1"; Some "v1"].
Proof. reflexivity. Qed.

End Runs.

End ItemListPageRowsFacts.
